(** * Calories/app.py: the calorie-burn prediction endpoint

    A shallow embedding of [src/Calories/app.py].  The module has two parts:
    the statements run once when the module is imported (loading the model,
    probing for the scaler) and the request handler [predict] behind
    [POST /predict].

    Python values are modelled as follows.
    - A Python [float] is an IEEE-754 binary64 number: Rocq's primitive
      [float].  A number returned by the model is either such a float or a
      [numpy.float64] scalar; the two hold the same values and differ in how
      [round] treats them.
    - A 2-D NumPy array of floats is a list of rows, [list (list float)].
    - The unpickled artifacts are opaque objects.  An object is a record of
      the two methods the module calls on it, each of which may raise.
    - The module namespace is a dictionary from names to values, and the
      file system a dictionary from paths to file contents.
    - Statements run in a state-and-exception monad [M] over a [world] that
      holds the namespace, the file system and a chronological trace of the
      observable actions (printing, binding a module-level name, calling a
      method of an artifact). *)

From Stdlib Require Import Ascii String ZArith Floats SpecFloat List Lia.
From stdpp Require Import gmap strings list fin_maps.

Set Warnings "-inexact-float,-register-all".

Local Open Scope Z_scope.

(** ** Python values *)

Inductive exn : Type :=
| FileNotFoundError (path : string)
| NameError (name : string)
| AttributeError (attr : string)
| IndexError
| ValueError (msg : string)
| Raised (what : string).

Inductive result (A : Type) : Type :=
| Ok (a : A)
| Raise (e : exn).
Arguments Ok {A} a.
Arguments Raise {A} e.

Definition ndarray : Type := list (list float).

(** [np.array] applied to a nested list of Python floats: the float64
    array with the same rows. *)
Definition np_array (rows : list (list float)) : ndarray := rows.

(** A number as [model.predict] hands it out: an element of a Python list
    of floats, or an element of a float64 NumPy array (what a scikit-learn
    regressor returns). *)
Inductive pynum : Type :=
| PyFloat (f : float)
| NpFloat64 (f : float).

(** The binary64 value a number holds; [numpy.float64] is a subclass of
    [float]. *)
Definition num_float (x : pynum) : float :=
  match x with
  | PyFloat f | NpFloat64 f => f
  end.

(** An unpickled artifact: what [obj.transform(x)] and [obj.predict(x)]
    do.  An object without the method raises [AttributeError] from it.
    [predict] answers one number per row; [Raised] stands for whatever
    exception the artifact's own code raises. *)
Record pyobj : Type := PyObject {
  obj_transform : ndarray → result ndarray;
  obj_predict : ndarray → result (list pynum)
}.

Inductive pyval : Type :=
| PyNone
| PyBool (b : bool)
| PyStr (s : string)
| PyObj (o : pyobj).

(** Truth value of an object in an [if]. *)
Definition truthy (v : pyval) : bool :=
  match v with
  | PyNone => false
  | PyBool b => b
  | PyStr s => negb (String.eqb s "")
  | PyObj _ => true
  end.

(** A file that exists: either a pickle that loads to an object, or a file
    whose loading raises (unreadable, truncated, not a pickle). *)
Inductive file : Type :=
| Pickle (o : pyobj)
| Broken (e : exn).

Inductive event : Type :=
| EvPrint (line : string)
| EvStore (name : string)
| EvTransform (x : ndarray)
| EvPredict (x : ndarray).

Record world : Type := World {
  globals : gmap string pyval;
  files : gmap string file;
  trace : list event
}.

(** ** The monad of statements *)

Definition M (A : Type) : Type := world → result A * world.

#[export] Instance M_ret : MRet M := λ A a w, (Ok a, w).

#[export] Instance M_bind : MBind M := λ A B f m w,
  match m w with
  | (Ok a, w') => f a w'
  | (Raise e, w') => (Raise e, w')
  end.

Definition raise {A : Type} (e : exn) : M A := λ w, (Raise e, w).

Definition lift {A : Type} (r : result A) : M A := λ w, (r, w).

Definition emit (ev : event) : M unit :=
  λ w, (Ok tt, World (globals w) (files w) (trace w ++ [ev])).

(** [name = v] at module level. *)
Definition store_global (name : string) (v : pyval) : M unit :=
  λ w, (Ok tt, World (<[name := v]> (globals w)) (files w) (trace w ++ [EvStore name])).

(** Reading a module-level name. *)
Definition load_global (name : string) : M pyval :=
  λ w, match globals w !! name with
       | Some v => (Ok v, w)
       | None => (Raise (NameError name), w)
       end.

Definition print (line : string) : M unit := emit (EvPrint line).

Definition joblib_load (path : string) : M pyobj :=
  λ w, match files w !! path with
       | Some (Pickle o) => (Ok o, w)
       | Some (Broken e) => (Raise e, w)
       | None => (Raise (FileNotFoundError path), w)
       end.

Definition os_path_exists (path : string) : M bool :=
  λ w, (Ok (bool_decide (is_Some (files w !! path))), w).

(** [v.transform(x)] and [v.predict(x)] on a value of the namespace. *)
Definition call_transform (v : pyval) (x : ndarray) : M ndarray :=
  match v with
  | PyObj o => emit (EvTransform x);; lift (obj_transform o x)
  | _ => raise (AttributeError "transform")
  end.

Definition call_predict (v : pyval) (x : ndarray) : M (list pynum) :=
  match v with
  | PyObj o => emit (EvPredict x);; lift (obj_predict o x)
  | _ => raise (AttributeError "predict")
  end.

(** [xs[0]] *)
Definition getitem0 {A : Type} (xs : list A) : M A :=
  match xs with
  | x :: _ => mret x
  | [] => raise IndexError
  end.

(** ** [round(x, ndigits)]

    [round] asks the number itself.  A Python float rounds its exact value
    to the nearest multiple of [10^-ndigits], ties to even, and returns the
    float nearest to that decimal.  A [numpy.float64] multiplies by
    [10^ndigits], rounds the product to an integer and divides again, all
    three steps in binary64 arithmetic.  In both, zeros, infinities and NaN
    round to themselves. *)

(** The integer nearest to [n / d] for [0 < d], ties to even. *)
Definition round_half_even (n d : Z) : Z :=
  let q := n / d in
  match 2 * (n mod d) ?= d with
  | Lt => q
  | Gt => q + 1
  | Eq => if Z.even q then q else q + 1
  end.

(** A finite float with mantissa [m] and exponent [e] is [m * 2^e]:
    numerator and denominator of that value. *)
Definition mantissa_num (m : positive) (e : Z) : Z :=
  if 0 <=? e then Zpos m * 2 ^ e else Zpos m.

Definition mantissa_den (e : Z) : Z :=
  if 0 <=? e then 1 else 2 ^ (- e).

(** The unit in the last place of such a float is [2^e], that is
    [ulp_num e / mantissa_den e]. *)
Definition ulp_num (e : Z) : Z :=
  if 0 <=? e then 2 ^ e else 1.

(** The exponent of the binary64 floats around [n / d]: the least [e], not
    below that of the subnormal floats, with [n / d < 2^(e + 53)]. *)
Definition binade (n d : Z) : Z :=
  Z.max (Z.log2 (n * 2 ^ 1127 / d) - 1179) (-1074).

(** A mantissa that rounding has pushed to [2^53] moves up one binade. *)
Definition carry (m e : Z) : Z * Z :=
  if m =? 2 ^ 53 then (2 ^ 52, e + 1) else (m, e).

Definition rounded_pair (n d : Z) : Z * Z :=
  let e := binade n d in
  carry (round_half_even (n * mantissa_den e) (d * ulp_num e)) e.

(** The binary64 float nearest to [(-1)^s * n / d], ties to even, for
    [0 <= n] and [0 < d]: what reading a decimal literal yields. *)
Definition round_rational (s : bool) (n d : Z) : spec_float :=
  let '(m, e) := rounded_pair n d in
  match m with
  | Zpos mp => if e <=? 971 then S754_finite s mp e else S754_infinity s
  | _ => S754_zero s
  end.

(** [float.__round__(x, ndigits)] for [0 <= ndigits]. *)
Definition float_round (x : float) (ndigits : nat) : float :=
  match Prim2SF x with
  | S754_finite s m e =>
      let p := 10 ^ Z.of_nat ndigits in
      SF2Prim (round_rational s (round_half_even (mantissa_num m e * p) (mantissa_den e)) p)
  | _ => x
  end.

(** C's [rint] in the default rounding mode: the integer nearest to [y],
    ties to even, as a float of the sign of [y]. *)
Definition rint (y : float) : float :=
  match Prim2SF y with
  | S754_finite s m e =>
      if 0 <=? e then y
      else SF2Prim (round_rational s (round_half_even (Zpos m) (2 ^ (- e))) 1)
  | _ => y
  end.

(** [numpy.float64.__round__(x, ndigits)] for [0 <= ndigits]: multiply,
    [rint], divide. *)
Definition np_round (x : float) (ndigits : nat) : float :=
  let f := SF2Prim (round_rational false (10 ^ Z.of_nat ndigits) 1) in
  (rint (x * f) / f)%float.

(** The builtin [round(x, ndigits)]; the handler calls it with 2. *)
Definition py_round (x : pynum) (ndigits : nat) : pynum :=
  match x with
  | PyFloat f => PyFloat (float_round f ndigits)
  | NpFloat64 f => NpFloat64 (np_round f ndigits)
  end.

(** ** Module initialisation (lines 10-21) *)

Definition scaler_path : string := "scaler.pkl".

Definition no_scaler_warning : string :=
  "⚠️ Warning: scaler.pkl not found, proceeding without scaling.".

(** [scaler_path] is bound on line 14 and read on the next two lines; the
    reads below use the value just bound. *)
Definition module_init : M unit :=
  model ← joblib_load "Calories.pkl";
  store_global "model" (PyObj model);;
  store_global "scaler_path" (PyStr scaler_path);;
  found ← os_path_exists scaler_path;
  if found : bool then
    scaler ← joblib_load scaler_path;
    store_global "scaler" (PyObj scaler);;
    store_global "use_scaler" (PyBool true)
  else
    store_global "scaler" PyNone;;
    store_global "use_scaler" (PyBool false);;
    print no_scaler_warning.

(** ** The request schema and the handler (lines 24-54) *)

Record InputData : Type := mkInputData {
  age : float;
  duration : float;
  heart_rate : float;
  body_temp : float
}.

Definition predict (data : InputData) : M (gmap string pynum) :=
  let features := np_array [[age data; duration data; heart_rate data; body_temp data]] in
  use_scaler ← load_global "use_scaler";
  features ← (if truthy use_scaler then
                 scaler ← load_global "scaler";
                 call_transform scaler features
               else mret features);
  model ← load_global "model";
  prediction ← call_predict model features;
  p ← getitem0 prediction;
  mret {[ "calories_burnt" := py_round p 2 ]}.

(** ** The HTTP layer

    FastAPI decodes the request body as JSON, validates it against
    [InputData], calls the handler and encodes what it returns.  A body that
    fails validation is answered with 422 without calling the handler; an
    exception escaping the handler is answered with 500, and so is a
    returned dictionary the encoder refuses because it holds an infinity or
    a NaN. *)

Inductive json : Type :=
| JNull
| JBool (b : bool)
| JInt (z : Z)
| JFloat (f : float)
| JStr (s : string)
| JArr (items : list json)
| JObj (members : gmap string json).

(** [float(z)] for a Python [int]: the nearest float, ties to even; too
    large an integer has no float. *)
Definition int_to_float (z : Z) : option float :=
  match binary_normalize prec emax z 0 false with
  | S754_infinity _ => None
  | sf => Some (SF2Prim sf)
  end.

Inductive response : Type :=
| JSONResponse (content : json)
| UnprocessableEntity
| InternalServerError (e : exn).

Definition status_code (r : response) : Z :=
  match r with
  | JSONResponse _ => 200
  | UnprocessableEntity => 422
  | InternalServerError _ => 500
  end.

(** The encoder's test for a float that JSON can express: it is equal to
    itself (not NaN) and its magnitude is not infinity. *)
Definition isfinite (f : float) : bool :=
  (f =? f)%float && negb (abs f =? infinity)%float.

(** What the JSON encoder raises on a float that JSON cannot express. *)
Definition not_json_compliant : exn :=
  ValueError "Out of range float values are not JSON compliant".

(** The dictionary returned by the handler, as a JSON object; the encoder
    is run with [allow_nan=False]. *)
Definition jsonable (d : gmap string pynum) : result json :=
  if forallb (λ kv, isfinite (num_float kv.2)) (map_to_list d)
  then Ok (JObj ((λ x, JFloat (num_float x)) <$> d))
  else Raise not_json_compliant.

(** The namespace before the first statement of the module has run. *)
Definition boot (fs : gmap string file) : world := World ∅ fs [].

Section Http.

(** The validator's conversion of a string to a float; [None] when the
    string does not spell a number. *)
Variable str_to_float : string → option float.

(** A field annotated [float]: numbers are taken as they are, booleans and
    numeric strings are converted, everything else is refused. *)
Definition coerce_float (v : json) : option float :=
  match v with
  | JFloat f => Some f
  | JInt z => int_to_float z
  | JBool b => Some (if b then 1%float else 0%float)
  | JStr s => str_to_float s
  | JNull | JArr _ | JObj _ => None
  end.

(** A required field without default. *)
Definition field (o : gmap string json) (name : string) : option float :=
  o !! name ≫= coerce_float.

Definition InputData_validate (body : json) : option InputData :=
  match body with
  | JObj o =>
      a ← field o "age";
      d ← field o "duration";
      h ← field o "heart_rate";
      b ← field o "body_temp";
      Some (mkInputData a d h b)
  | _ => None
  end.

(** [POST /predict] *)
Definition post_predict (body : json) (w : world) : response * world :=
  match InputData_validate body with
  | None => (UnprocessableEntity, w)
  | Some data =>
      match predict data w with
      | (Ok d, w') =>
          (match jsonable d with
           | Ok content => JSONResponse content
           | Raise e => InternalServerError e
           end, w')
      | (Raise e, w') => (InternalServerError e, w')
      end
  end.

(** Requests served one after the other. *)
Fixpoint handle_all (bodies : list json) (w : world) : list response * world :=
  match bodies with
  | [] => ([], w)
  | body :: bodies' =>
      let (r, w') := post_predict body w in
      let (rs, w'') := handle_all bodies' w' in
      (r :: rs, w'')
  end.

(** The process: import the module, then serve.  When the import raises,
    the process ends with that exception and serves nothing. *)
Definition serve (fs : gmap string file) (bodies : list json)
  : result (list response) * world :=
  match module_init (boot fs) with
  | (Ok _, w) => let (rs, w') := handle_all bodies w in (Ok rs, w')
  | (Raise e, w) => (Raise e, w)
  end.

End Http.

(** A converter for decimal literals, an instance of the validator's string
    conversion: optional white space around, an optional sign, digits with
    an optional fraction, an optional exponent ([-12], [38.5], [+5], [1e3],
    [ 30 ]).  It does not know [inf], [nan] or digit separators. *)
Definition is_space (c : ascii) : bool :=
  let n := Z.of_N (N_of_ascii c) in
  (n =? 32) || ((9 <=? n) && (n <=? 13)).

Fixpoint lstrip (s : string) : string :=
  match s with
  | String c rest => if is_space c then lstrip rest else s
  | EmptyString => EmptyString
  end.

Fixpoint rstrip (s : string) : string :=
  match s with
  | String c rest =>
      let rest' := rstrip rest in
      if is_space c && String.eqb rest' "" then EmptyString else String c rest'
  | EmptyString => EmptyString
  end.

Definition digit_of (c : ascii) : option Z :=
  let n := Z.of_N (N_of_ascii c) in
  if (48 <=? n) && (n <=? 57) then Some (n - 48) else None.

Fixpoint digits_of (s : string) (acc : Z) : option Z :=
  match s with
  | EmptyString => Some acc
  | String c rest =>
      match digit_of c with
      | Some d => digits_of rest (10 * acc + d)
      | None => None
      end
  end.

(** The text before the first character in [seps], and the text after it. *)
Fixpoint split_at (seps : list ascii) (s : string) : string * option string :=
  match s with
  | EmptyString => (EmptyString, None)
  | String c rest =>
      if existsb (Ascii.eqb c) seps then (EmptyString, Some rest)
      else let (a, b) := split_at seps rest in (String c a, b)
  end.

Definition parse_sign (s : string) : bool * string :=
  match s with
  | String "-" rest => (true, rest)
  | String "+" rest => (false, rest)
  | _ => (false, s)
  end.

(** Digits with an optional fraction, as numerator and power-of-ten
    denominator. *)
Definition parse_unsigned (s : string) : option (Z * Z) :=
  match split_at ["."%char] s with
  | (ip, None) =>
      if String.eqb ip "" then None else n ← digits_of ip 0; Some (n, 1)
  | (ip, Some fp) =>
      if String.eqb ip "" && String.eqb fp "" then None
      else n ← digits_of (String.append ip fp) 0; Some (n, 10 ^ Z.of_nat (String.length fp))
  end.

Definition parse_exponent (s : string) : option Z :=
  let '(neg, digits) := parse_sign s in
  if String.eqb digits "" then None
  else x ← digits_of digits 0; Some (if neg : bool then - x else x).

Definition parse_decimal (s : string) : option float :=
  let '(neg, body) := parse_sign (rstrip (lstrip s)) in
  let '(mantissa, exponent) := split_at ["e"%char; "E"%char] body in
  '(n, d) ← parse_unsigned mantissa;
  x ← match exponent with
      | Some digits => parse_exponent digits
      | None => Some 0
      end;
  Some (SF2Prim (if 0 <=? x then round_rational neg (n * 10 ^ x) d
                 else round_rational neg n (d * 10 ^ (- x)))).

(** ** Vocabulary of the statements *)

(** The row built on line 45. *)
Definition raw_vector (data : InputData) : ndarray :=
  [[age data; duration data; heart_rate data; body_temp data]].

(** [model_input w data x]: in world [w], lines 48-49 leave [x] in
    [features], the array handed to the model. *)
Definition model_input (w : world) (data : InputData) (x : ndarray) : Prop :=
  ∃ us, globals w !! "use_scaler" = Some us ∧
    if truthy us
    then ∃ sc, globals w !! "scaler" = Some (PyObj sc) ∧
               obj_transform sc (raw_vector data) = Ok x
    else x = raw_vector data.








(** How often [name] was bound in a trace. *)
Fixpoint stores (name : string) (t : list event) : nat :=
  match t with
  | [] => 0%nat
  | EvStore n :: t' => ((if String.eqb n name then 1 else 0) + stores name t')%nat
  | _ :: t' => stores name t'
  end.

(** Events that only a method call on an artifact produces. *)
Definition is_call (ev : event) : Prop :=
  match ev with
  | EvTransform _ | EvPredict _ => True
  | _ => False
  end.

Definition is_transform (ev : event) : Prop :=
  match ev with
  | EvTransform _ => True
  | _ => False
  end.

Definition is_print (ev : event) : Prop :=
  match ev with
  | EvPrint _ => True
  | _ => False
  end.

Definition request_fields : list string :=
  ["age"; "duration"; "heart_rate"; "body_temp"].

(** ** Stub artifacts and sample requests *)

(** A model that answers the list [[150.456]] whatever it is given. *)
Definition stub_model : pyobj :=
  PyObject (λ _, Raise (AttributeError "transform")) (λ _, Ok [PyFloat 150.456]).



(** A scaler that doubles every entry. *)
Definition stub_scaler : pyobj :=
  PyObject (λ x, Ok (map (map (λ v, v * 2)%float) x))
           (λ _, Raise (AttributeError "predict")).

(** A scaler and a model whose methods raise. *)
Definition failing_scaler : pyobj :=
  PyObject (λ _, Raise (Raised "ValueError in transform"))
           (λ _, Raise (AttributeError "predict")).

Definition failing_model : pyobj :=
  PyObject (λ _, Raise (AttributeError "transform"))
           (λ _, Raise (Raised "ValueError in predict")).

Definition model_only : gmap string file :=
  {[ "Calories.pkl" := Pickle stub_model ]}.

Definition model_and_scaler : gmap string file :=
  {[ "Calories.pkl" := Pickle stub_model; "scaler.pkl" := Pickle stub_scaler ]}.

Definition failing_scaler_files : gmap string file :=
  {[ "Calories.pkl" := Pickle stub_model; "scaler.pkl" := Pickle failing_scaler ]}.

Definition no_model : gmap string file :=
  {[ "scaler.pkl" := Pickle stub_scaler ]}.

(** The world once the module has been imported. *)
Definition started (fs : gmap string file) : world := snd (module_init (boot fs)).

Definition example_data : InputData := mkInputData 30 25 120 38.5.

Definition example_request : json :=
  JObj {[ "age" := JInt 30; "duration" := JInt 25;
          "heart_rate" := JInt 120; "body_temp" := JFloat 38.5 ]}.

Definition malformed_request : json :=
  JObj {[ "age" := JStr "not-a-number"; "duration" := JInt 25;
          "heart_rate" := JInt 120; "body_temp" := JFloat 38.5 ]}.

(** A model that answers no prediction at all. *)
Definition empty_model : pyobj :=
  PyObject (λ _, Raise (AttributeError "transform")) (λ _, Ok []).

Definition empty_model_files : gmap string file :=
  {[ "Calories.pkl" := Pickle empty_model ]}.

(** [scaler.pkl] is there but does not unpickle. *)
Definition broken_scaler_files : gmap string file :=
  {[ "Calories.pkl" := Pickle stub_model;
     "scaler.pkl" := Broken (Raised "UnpicklingError") ]}.

(** The members of [example_request]. *)
Definition example_members : gmap string json :=
  {[ "age" := JInt 30; "duration" := JInt 25;
     "heart_rate" := JInt 120; "body_temp" := JFloat 38.5 ]}.

(** ** Rounding *)






(** [2^e * 2^c = 2^(e+c)], with [2^e] as [ulp_num e / mantissa_den e]. *)



















(** Integers below [2^53] are floats. *)



(** ** Floats *)














(** The two kinds of number do not round alike: [2.675] is stored slightly
    below the tie, which a Python float sees and a [numpy.float64], whose
    product with 100 is rounded to [267.5] first, does not; and a
    [numpy.float64] whose product with 100 overflows rounds to infinity. *)
Example py_round_examples :
  (py_round (PyFloat 2.675) 2 = PyFloat 2.67
   ∧ py_round (NpFloat64 2.675) 2 = NpFloat64 2.68
   ∧ py_round (PyFloat 0.125) 2 = PyFloat 0.12
   ∧ py_round (PyFloat 0.375) 2 = PyFloat 0.38
   ∧ py_round (PyFloat (-0.001)) 2 = PyFloat (-0)
   ∧ py_round (PyFloat 1.7e308) 2 = PyFloat 1.7e308
   ∧ py_round (NpFloat64 1.7e308) 2 = NpFloat64 infinity
   ∧ py_round (PyFloat nan) 2 = PyFloat nan)%float.
Proof. vm_compute. repeat split. Qed.


(** ** The handler, case by case *)

Ltac run :=
  unfold mbind, M_bind, mret, M_ret, load_global, call_transform, call_predict,
    getitem0, emit, lift, raise; simpl.

Lemma predict_unscaled (w : world) (data : InputData) (us : pyval) (m : pyobj) :
  globals w !! "use_scaler" = Some us → truthy us = false →
  globals w !! "model" = Some (PyObj m) →
  predict data w =
    (match obj_predict m (raw_vector data) with
     | Ok (p :: _) => Ok {[ "calories_burnt" := py_round p 2 ]}
     | Ok [] => Raise IndexError
     | Raise e => Raise e
     end,
     World (globals w) (files w) (trace w ++ [EvPredict (raw_vector data)])).
Proof.
  intros Hus Hf Hm. unfold predict, np_array, raw_vector. run.
  rewrite Hus, Hf. simpl. rewrite Hm. simpl.
  destruct (obj_predict m _) as [[|p ps]|e]; reflexivity.
Qed.

Lemma predict_scaled (w : world) (data : InputData) (us : pyval) (sc m : pyobj)
    (x : ndarray) :
  globals w !! "use_scaler" = Some us → truthy us = true →
  globals w !! "scaler" = Some (PyObj sc) →
  obj_transform sc (raw_vector data) = Ok x →
  globals w !! "model" = Some (PyObj m) →
  predict data w =
    (match obj_predict m x with
     | Ok (p :: _) => Ok {[ "calories_burnt" := py_round p 2 ]}
     | Ok [] => Raise IndexError
     | Raise e => Raise e
     end,
     World (globals w) (files w)
       (trace w ++ [EvTransform (raw_vector data); EvPredict x])).
Proof.
  intros Hus Ht Hsc Hx Hm. unfold predict, np_array, raw_vector in *. run.
  rewrite Hus, Ht. simpl. rewrite Hsc. simpl. rewrite Hx. simpl. rewrite Hm. simpl.
  rewrite <- app_assoc. simpl.
  destruct (obj_predict m _) as [[|p ps]|e]; reflexivity.
Qed.

Lemma predict_transform_raises (w : world) (data : InputData) (us : pyval)
    (sc : pyobj) (e : exn) :
  globals w !! "use_scaler" = Some us → truthy us = true →
  globals w !! "scaler" = Some (PyObj sc) →
  obj_transform sc (raw_vector data) = Raise e →
  predict data w =
    (Raise e, World (globals w) (files w) (trace w ++ [EvTransform (raw_vector data)])).
Proof.
  intros Hus Ht Hsc Hx. unfold predict, np_array, raw_vector in *. run.
  rewrite Hus, Ht. simpl. rewrite Hsc. simpl. rewrite Hx. reflexivity.
Qed.

(** What reaches the model, whichever way line 47 goes. *)
Lemma predict_model_input (w : world) (data : InputData) (m : pyobj) (x : ndarray) :
  globals w !! "model" = Some (PyObj m) → model_input w data x →
  fst (predict data w) =
    match obj_predict m x with
    | Ok (p :: _) => Ok {[ "calories_burnt" := py_round p 2 ]}
    | Ok [] => Raise IndexError
    | Raise e => Raise e
    end.
Proof.
  intros Hm (us & Hus & Hx). destruct (truthy us) eqn:Ht.
  - destruct Hx as (sc & Hsc & Hx).
    rewrite (predict_scaled w data us sc m x); auto.
  - subst x. rewrite (predict_unscaled w data us m); auto.
Qed.

(** ** What a call of the handler leaves behind *)

Lemma stores_app (name : string) (t1 t2 : list event) :
  stores name (t1 ++ t2) = (stores name t1 + stores name t2)%nat.
Proof.
  induction t1 as [|ev t1 IH]; simpl; [reflexivity|].
  destruct ev; rewrite IH; lia.
Qed.

Lemma stores_calls (name : string) (evs : list event) :
  Forall is_call evs → stores name evs = 0%nat.
Proof.
  induction 1 as [|ev evs Hev _ IH]; simpl; [reflexivity|].
  destruct ev; simpl in Hev; tauto.
Qed.

Ltac frame_done :=
  first
    [ exists []; rewrite app_nil_r; split; [reflexivity | constructor]
    | eexists; rewrite <- ?app_assoc; split; [reflexivity | repeat constructor] ].

Lemma predict_frame (data : InputData) (w : world) :
  ∃ evs, snd (predict data w) = World (globals w) (files w) (trace w ++ evs)
         ∧ Forall is_call evs.
Proof.
  destruct w as [g f t]. unfold predict, np_array. run.
  destruct (g !! "use_scaler") as [us|]; simpl; [|frame_done].
  destruct (truthy us); simpl.
  - destruct (g !! "scaler") as [[| | |sc]|]; simpl; try frame_done.
    destruct (obj_transform sc _) as [x|e]; simpl; [|frame_done].
    destruct (g !! "model") as [[| | |m]|]; simpl; try frame_done.
    destruct (obj_predict m _) as [[|p ps]|e]; simpl; frame_done.
  - destruct (g !! "model") as [[| | |m]|]; simpl; try frame_done.
    destruct (obj_predict m _) as [[|p ps]|e]; simpl; frame_done.
Qed.

Lemma predict_globals (data : InputData) (w : world) :
  globals (snd (predict data w)) = globals w.
Proof. destruct (predict_frame data w) as (evs & -> & _). reflexivity. Qed.

Lemma predict_stores (data : InputData) (w : world) (name : string) :
  stores name (trace (snd (predict data w))) = stores name (trace w).
Proof.
  destruct (predict_frame data w) as (evs & -> & Hc). simpl.
  rewrite stores_app, (stores_calls name evs Hc). lia.
Qed.

(** ** Module initialisation, case by case *)

Ltac init :=
  unfold module_init, boot, scaler_path; run;
  unfold joblib_load, store_global, os_path_exists, print, emit; simpl.

Lemma module_init_model_missing (fs : gmap string file) :
  fs !! "Calories.pkl" = None →
  module_init (boot fs) = (Raise (FileNotFoundError "Calories.pkl"), boot fs).
Proof. intros H. init. rewrite H. reflexivity. Qed.

Lemma module_init_model_broken (fs : gmap string file) (e : exn) :
  fs !! "Calories.pkl" = Some (Broken e) →
  module_init (boot fs) = (Raise e, boot fs).
Proof. intros H. init. rewrite H. reflexivity. Qed.

Lemma module_init_without_scaler (fs : gmap string file) (m : pyobj) :
  fs !! "Calories.pkl" = Some (Pickle m) → fs !! "scaler.pkl" = None →
  module_init (boot fs) =
    (Ok tt,
     World (<["use_scaler" := PyBool false]> (<["scaler" := PyNone]>
             (<["scaler_path" := PyStr "scaler.pkl"]> (<["model" := PyObj m]> ∅))))
       fs
       [EvStore "model"; EvStore "scaler_path"; EvStore "scaler";
        EvStore "use_scaler"; EvPrint no_scaler_warning]).
Proof. intros Hm Hs. init. rewrite Hm. simpl. rewrite Hs. reflexivity. Qed.

Lemma module_init_with_scaler (fs : gmap string file) (m sc : pyobj) :
  fs !! "Calories.pkl" = Some (Pickle m) → fs !! "scaler.pkl" = Some (Pickle sc) →
  module_init (boot fs) =
    (Ok tt,
     World (<["use_scaler" := PyBool true]> (<["scaler" := PyObj sc]>
             (<["scaler_path" := PyStr "scaler.pkl"]> (<["model" := PyObj m]> ∅))))
       fs
       [EvStore "model"; EvStore "scaler_path"; EvStore "scaler"; EvStore "use_scaler"]).
Proof. intros Hm Hs. init. rewrite Hm. simpl. rewrite Hs. simpl. rewrite Hs. reflexivity. Qed.

Lemma module_init_scaler_broken (fs : gmap string file) (m : pyobj) (e : exn) :
  fs !! "Calories.pkl" = Some (Pickle m) → fs !! "scaler.pkl" = Some (Broken e) →
  fst (module_init (boot fs)) = Raise e.
Proof. intros Hm Hs. init. rewrite Hm. simpl. rewrite Hs. simpl. rewrite Hs. reflexivity. Qed.

(** ** The HTTP layer *)

Section HttpFacts.

Variable str_to_float : string → option float.

Lemma jsonable_singleton (k : string) (v : pynum) :
  jsonable {[ k := v ]} =
    if isfinite (num_float v) then Ok (JObj {[ k := JFloat (num_float v) ]})
    else Raise not_json_compliant.
Proof.
  unfold jsonable. rewrite map_to_list_singleton, map_fmap_singleton. simpl.
  destruct (isfinite (num_float v)); reflexivity.
Qed.

Lemma post_predict_valid (body : json) (data : InputData) (w : world) :
  InputData_validate str_to_float body = Some data →
  fst (post_predict str_to_float body w) =
    match fst (predict data w) with
    | Ok d =>
        match jsonable d with
        | Ok content => JSONResponse content
        | Raise e => InternalServerError e
        end
    | Raise e => InternalServerError e
    end
  ∧ snd (post_predict str_to_float body w) = snd (predict data w).
Proof.
  intros Hv. unfold post_predict. rewrite Hv.
  destruct (predict data w) as [[d|e] w']; split; reflexivity.
Qed.

Lemma post_predict_frame (body : json) (w : world) :
  ∃ evs, snd (post_predict str_to_float body w)
           = World (globals w) (files w) (trace w ++ evs)
         ∧ Forall is_call evs.
Proof.
  destruct (InputData_validate str_to_float body) as [data|] eqn:Hv.
  - destruct (post_predict_valid body data w Hv) as [_ ->]. apply predict_frame.
  - unfold post_predict. rewrite Hv. simpl. destruct w. frame_done.
Qed.

Lemma handle_all_frame (bodies : list json) (w : world) :
  ∃ evs, snd (handle_all str_to_float bodies w)
           = World (globals w) (files w) (trace w ++ evs)
         ∧ Forall is_call evs.
Proof.
  revert w. induction bodies as [|body bodies IH]; intros w; simpl.
  - destruct w. frame_done.
  - destruct (post_predict_frame body w) as (evs1 & H1 & Hc1).
    destruct (post_predict str_to_float body w) as [r w1]. simpl in H1. subst w1.
    destruct (IH (World (globals w) (files w) (trace w ++ evs1))) as (evs2 & H2 & Hc2).
    destruct (handle_all str_to_float bodies _) as [rs w2]. simpl in *. subst w2.
    exists (evs1 ++ evs2). rewrite app_assoc. split; [reflexivity|].
    apply Forall_app; auto.
Qed.

Lemma handle_all_globals (bodies : list json) (w : world) :
  globals (snd (handle_all str_to_float bodies w)) = globals w.
Proof. destruct (handle_all_frame bodies w) as (evs & -> & _). reflexivity. Qed.

Lemma handle_all_stores (bodies : list json) (w : world) (name : string) :
  stores name (trace (snd (handle_all str_to_float bodies w))) = stores name (trace w).
Proof.
  destruct (handle_all_frame bodies w) as (evs & -> & Hc). simpl.
  rewrite stores_app, (stores_calls name evs Hc). lia.
Qed.

(** Validation looks at nothing but the four fields. *)
Lemma validate_None (o : gmap string json) :
  InputData_validate str_to_float (JObj o) = None ↔
  ∃ name, name ∈ request_fields ∧ field str_to_float o name = None.
Proof.
  unfold InputData_validate, request_fields. split.
  - intros H.
    destruct (field _ o "age") eqn:Ha; [|exists "age"; set_solver].
    destruct (field _ o "duration") eqn:Hd; [|exists "duration"; set_solver].
    destruct (field _ o "heart_rate") eqn:Hh; [|exists "heart_rate"; set_solver].
    destruct (field _ o "body_temp") eqn:Hb; [|exists "body_temp"; set_solver].
    discriminate H.
  - intros (name & Hin & Hn).
    repeat (apply elem_of_cons in Hin as [->|Hin]);
      [..|by apply elem_of_nil in Hin]; rewrite Hn; simpl;
      repeat (destruct (field _ o _); simpl; try reflexivity).
Qed.

Lemma validate_ext (o1 o2 : gmap string json) :
  (∀ name, name ∈ request_fields →
     field str_to_float o1 name = field str_to_float o2 name) →
  InputData_validate str_to_float (JObj o1) = InputData_validate str_to_float (JObj o2).
Proof.
  intros H. unfold InputData_validate, request_fields in *.
  rewrite (H "age"), (H "duration"), (H "heart_rate"), (H "body_temp");
    [reflexivity|set_solver..].
Qed.

(** With scaling off and a model bound, serving requests calls the scaler
    at no point. *)
Lemma handle_all_unscaled (bodies : list json) (w : world) (us : pyval) (m : pyobj) :
  globals w !! "use_scaler" = Some us → truthy us = false →
  globals w !! "model" = Some (PyObj m) →
  ∃ evs, trace (snd (handle_all str_to_float bodies w)) = trace w ++ evs
         ∧ Forall (λ ev, ¬ is_transform ev) evs.
Proof.
  revert w. induction bodies as [|body bodies IH]; intros w Hus Hf Hm; simpl.
  - exists []. rewrite app_nil_r. split; [reflexivity|constructor].
  - assert (∃ evs1, snd (post_predict str_to_float body w)
                      = World (globals w) (files w) (trace w ++ evs1)
                    ∧ Forall (λ ev, ¬ is_transform ev) evs1) as (evs1 & H1 & Hn1).
    { destruct (InputData_validate str_to_float body) as [data|] eqn:Hv.
      - destruct (post_predict_valid body data w Hv) as [_ ->].
        rewrite (predict_unscaled w data us m Hus Hf Hm). simpl.
        eexists. split; [reflexivity|]. repeat constructor. simpl. tauto.
      - unfold post_predict. rewrite Hv. simpl. destruct w.
        exists []. rewrite app_nil_r. split; [reflexivity|constructor]. }
    destruct (post_predict str_to_float body w) as [r w1]. simpl in H1. subst w1.
    destruct (IH (World (globals w) (files w) (trace w ++ evs1)) Hus Hf Hm)
      as (evs2 & H2 & Hn2).
    destruct (handle_all str_to_float bodies _) as [rs w2]. simpl in *.
    exists (evs1 ++ evs2). rewrite app_assoc. split; [exact H2|].
    apply Forall_app; auto.
Qed.

End HttpFacts.

(** A model whose [predict] raises: the request is answered 500 after the
    model was called once; a missing or mistyped field never gets that far. *)
Example failing_model_trace :
  let fs : gmap string file := {[ "Calories.pkl" := Pickle failing_model ]} in
  fst (serve parse_decimal fs [example_request; malformed_request; JNull])
    = Ok [InternalServerError (Raised "ValueError in predict");
          UnprocessableEntity; UnprocessableEntity]
  ∧ trace (snd (serve parse_decimal fs [example_request; malformed_request; JNull]))
    = [EvStore "model"; EvStore "scaler_path"; EvStore "scaler"; EvStore "use_scaler";
       EvPrint no_scaler_warning; EvPredict [[30; 25; 120; 38.5]]%float].
Proof. vm_compute. split; reflexivity. Qed.

(** ** The feature vector and where it goes *)

(** C1: the array that [predict] builds and submits, to the scaler when
    scaling is on and to the model when it is off, is the single row
    [age, duration, heart_rate, body_temp] of the record, in that order. *)
Theorem predict_feature_vector (w : world) (data : InputData) (us : pyval) :
  globals w !! "use_scaler" = Some us →
  (truthy us = true → ∀ sc, globals w !! "scaler" = Some (PyObj sc) →
     ∃ rest, trace (snd (predict data w)) =
       trace w ++ EvTransform [[age data; duration data; heart_rate data; body_temp data]]
              :: rest)
  ∧ (truthy us = false → ∀ m, globals w !! "model" = Some (PyObj m) →
     trace (snd (predict data w)) =
       trace w ++ [EvPredict [[age data; duration data; heart_rate data; body_temp data]]]).
Proof.
  intros Hus. split.
  - intros Ht sc Hsc. destruct w as [g f t]. simpl in *.
    unfold predict, np_array. run. rewrite Hus, Ht. simpl. rewrite Hsc. simpl.
    destruct (obj_transform sc _) as [x|e]; simpl; [|eexists; reflexivity].
    destruct (g !! "model") as [[| | |m]|]; simpl; try (eexists; reflexivity).
    destruct (obj_predict m _) as [[|p ps]|e]; simpl;
      rewrite <- app_assoc; eexists; reflexivity.
  - intros Hf m Hm. rewrite (predict_unscaled w data us m Hus Hf Hm). reflexivity.
Qed.

Lemma predict_feature_vector_witness :
  trace (snd (predict example_data (started model_only))) =
    trace (started model_only) ++ [EvPredict [[30; 25; 120; 38.5]]]%float.
Proof.
  apply (proj2 (predict_feature_vector (started model_only) example_data (PyBool false)
                  ltac:(vm_compute; reflexivity)) ltac:(reflexivity) stub_model).
  vm_compute; reflexivity.
Defined.

(** C2: the model is called on [scaler.transform(raw)] when [use_scaler] is
    true, and on the raw vector, with no call of the scaler, when it is
    false. *)
Theorem model_receives_scaled_or_raw (w : world) (data : InputData) (us : pyval)
    (m : pyobj) :
  globals w !! "use_scaler" = Some us →
  globals w !! "model" = Some (PyObj m) →
  (truthy us = true → ∀ sc x, globals w !! "scaler" = Some (PyObj sc) →
     obj_transform sc (raw_vector data) = Ok x →
     trace (snd (predict data w)) =
       trace w ++ [EvTransform (raw_vector data); EvPredict x])
  ∧ (truthy us = false →
     trace (snd (predict data w)) = trace w ++ [EvPredict (raw_vector data)]).
Proof.
  intros Hus Hm. split.
  - intros Ht sc x Hsc Hx. rewrite (predict_scaled w data us sc m x); auto.
  - intros Hf. rewrite (predict_unscaled w data us m); auto.
Qed.

Lemma model_receives_scaled_or_raw_witness :
  trace (snd (predict example_data (started model_and_scaler))) =
    trace (started model_and_scaler)
      ++ [EvTransform [[30; 25; 120; 38.5]]; EvPredict [[60; 50; 240; 77]]]%float.
Proof.
  apply (proj1 (model_receives_scaled_or_raw (started model_and_scaler) example_data
                  (PyBool true) stub_model
                  ltac:(vm_compute; reflexivity) ltac:(vm_compute; reflexivity))
           ltac:(reflexivity) stub_scaler);
    vm_compute; reflexivity.
Defined.

(** ** The answer *)




(** C4: the request [{"age": 30, "duration": 25, "heart_rate": 120,
    "body_temp": 38.5}], served without scaler by a model that answers
    [[150.456]], as a list or as a float64 array, is answered
    [{"calories_burnt": 150.46}]. *)
Theorem example_request_response (str_to_float : string → option float)
    (w : world) (m : pyobj) :
  globals w !! "use_scaler" = Some (PyBool false) →
  globals w !! "model" = Some (PyObj m) →
  (obj_predict m [[30; 25; 120; 38.5]]%float = Ok [PyFloat 150.456]
   ∨ obj_predict m [[30; 25; 120; 38.5]]%float = Ok [NpFloat64 150.456]) →
  fst (post_predict str_to_float example_request w) =
    JSONResponse (JObj {[ "calories_burnt" := JFloat 150.46 ]}).
Proof.
  intros Hus Hm Hp.
  assert (InputData_validate str_to_float example_request = Some example_data) as Hv
    by (vm_compute; reflexivity).
  destruct (post_predict_valid str_to_float _ _ w Hv) as [-> _].
  rewrite (predict_unscaled w example_data (PyBool false) m Hus eq_refl Hm).
  unfold raw_vector, example_data. simpl.
  destruct Hp as [Hp|Hp]; rewrite Hp, jsonable_singleton; vm_compute; reflexivity.
Qed.

Lemma example_request_response_witness :
  fst (post_predict parse_decimal example_request (started model_only)) =
    JSONResponse (JObj {[ "calories_burnt" := JFloat 150.46 ]}).
Proof.
  apply (example_request_response parse_decimal (started model_only) stub_model);
    try left; vm_compute; reflexivity.
Defined.

(** ** Validation *)

(** C5: a body in which one of the four fields is missing, or holds a value
    that cannot be read as a number, fails validation and is answered with a
    client error; the world is left as it was, so no vector was built and
    neither the scaler nor the model was called. *)
Theorem invalid_body_rejected (str_to_float : string → option float)
    (o : gmap string json) (name : string) (w : world) :
  name ∈ request_fields →
  (o !! name = None ∨ ∃ v, o !! name = Some v ∧ coerce_float str_to_float v = None) →
  InputData_validate str_to_float (JObj o) = None
  ∧ post_predict str_to_float (JObj o) w = (UnprocessableEntity, w)
  ∧ 400 ≤ status_code (fst (post_predict str_to_float (JObj o) w)) < 500.
Proof.
  intros Hin Hbad.
  assert (InputData_validate str_to_float (JObj o) = None) as Hv.
  { apply validate_None. exists name. split; [exact Hin|].
    unfold field. destruct Hbad as [->|(v & -> & Hc)]; [reflexivity|exact Hc]. }
  unfold post_predict. rewrite Hv. simpl. repeat split; lia.
Qed.

Lemma invalid_body_rejected_witness :
  post_predict parse_decimal malformed_request (started model_only)
    = (UnprocessableEntity, started model_only).
Proof.
  refine (proj1 (proj2 (invalid_body_rejected parse_decimal _ "age" (started model_only) _ _))).
  - vm_compute. left.
  - right. exists (JStr "not-a-number"). split; vm_compute; reflexivity.
Defined.



(** ** Start-up *)

(** C6: when [Calories.pkl] is absent or cannot be loaded, importing the
    module raises the load error before anything is bound, and the process
    ends with that error without serving any request. *)
Theorem startup_fails_without_model (fs : gmap string file) :
  (fs !! "Calories.pkl" = None ∨ ∃ e, fs !! "Calories.pkl" = Some (Broken e)) →
  ∃ e, module_init (boot fs) = (Raise e, boot fs)
       ∧ ∀ (str_to_float : string → option float) (bodies : list json),
           serve str_to_float fs bodies = (Raise e, boot fs).
Proof.
  intros [Hm|(e & Hm)].
  - exists (FileNotFoundError "Calories.pkl").
    pose proof (module_init_model_missing fs Hm) as Hi.
    split; [exact Hi|]. intros. unfold serve. rewrite Hi. reflexivity.
  - exists e. pose proof (module_init_model_broken fs e Hm) as Hi.
    split; [exact Hi|]. intros. unfold serve. rewrite Hi. reflexivity.
Qed.

Lemma startup_fails_without_model_witness :
  ∃ e, module_init (boot no_model) = (Raise e, boot no_model)
       ∧ ∀ (str_to_float : string → option float) (bodies : list json),
           serve str_to_float no_model bodies = (Raise e, boot no_model).
Proof.
  apply (startup_fails_without_model no_model). left. vm_compute; reflexivity.
Defined.

(** C7: when [scaler.pkl] does not exist and the model loads, importing the
    module succeeds with [use_scaler] false and [scaler] [None] after
    printing the warning, and every later call of [predict] calls the model
    on the raw vector and never the scaler. *)
Theorem startup_without_scaler (fs : gmap string file) (m : pyobj) :
  fs !! "Calories.pkl" = Some (Pickle m) →
  fs !! "scaler.pkl" = None →
  ∃ w1, module_init (boot fs) = (Ok tt, w1)
    ∧ globals w1 !! "use_scaler" = Some (PyBool false)
    ∧ globals w1 !! "scaler" = Some PyNone
    ∧ EvPrint no_scaler_warning ∈ trace w1
    ∧ ∀ (str_to_float : string → option float) (bodies : list json) (data : InputData),
        let w2 := snd (handle_all str_to_float bodies w1) in
        (∃ rs, fst (serve str_to_float fs bodies) = Ok rs)
        ∧ Forall (λ ev, ¬ is_transform ev) (trace w2)
        ∧ trace (snd (predict data w2)) = trace w2 ++ [EvPredict (raw_vector data)].
Proof.
  intros Hm Hs. eexists. split; [apply (module_init_without_scaler fs m Hm Hs)|].
  split; [reflexivity|]. split; [reflexivity|].
  split; [unfold no_scaler_warning; set_solver|].
  intros str_to_float bodies data w2. split; [|split].
  - unfold serve. rewrite (module_init_without_scaler fs m Hm Hs).
    destruct (handle_all _ _ _) as [rs w']. exists rs. reflexivity.
  - unfold w2.
    match goal with
    | |- context [handle_all _ _ ?w] =>
        destruct (handle_all_unscaled str_to_float bodies w (PyBool false) m)
          as (evs & Ht & Hn); [reflexivity..|]
    end.
    rewrite Ht. simpl. repeat (constructor; [simpl; tauto|]). exact Hn.
  - rewrite (predict_unscaled w2 data (PyBool false) m); [reflexivity| |reflexivity|];
      unfold w2; rewrite handle_all_globals; reflexivity.
Qed.

Lemma startup_without_scaler_witness :
  ∃ w1, module_init (boot model_only) = (Ok tt, w1)
    ∧ globals w1 !! "use_scaler" = Some (PyBool false)
    ∧ globals w1 !! "scaler" = Some PyNone
    ∧ EvPrint no_scaler_warning ∈ trace w1
    ∧ ∀ (str_to_float : string → option float) (bodies : list json) (data : InputData),
        let w2 := snd (handle_all str_to_float bodies w1) in
        (∃ rs, fst (serve str_to_float model_only bodies) = Ok rs)
        ∧ Forall (λ ev, ¬ is_transform ev) (trace w2)
        ∧ trace (snd (predict data w2)) = trace w2 ++ [EvPredict (raw_vector data)].
Proof.
  apply (startup_without_scaler model_only stub_model); vm_compute; reflexivity.
Defined.

(** ** Failures during inference *)

(** C8: an exception raised by [scaler.transform] or by [model.predict]
    while a request is handled leaves [predict] as that same exception, and
    the caller is answered with a server error. *)
Theorem inference_errors_propagate (str_to_float : string → option float)
    (w : world) (body : json) (data : InputData) (e : exn) :
  InputData_validate str_to_float body = Some data →
  ((∃ us sc, globals w !! "use_scaler" = Some us ∧ truthy us = true
             ∧ globals w !! "scaler" = Some (PyObj sc)
             ∧ obj_transform sc (raw_vector data) = Raise e)
   ∨ (∃ m x, globals w !! "model" = Some (PyObj m) ∧ model_input w data x
             ∧ obj_predict m x = Raise e)) →
  fst (predict data w) = Raise e
  ∧ fst (post_predict str_to_float body w) = InternalServerError e
  ∧ status_code (fst (post_predict str_to_float body w)) = 500.
Proof.
  intros Hv Hraise.
  assert (fst (predict data w) = Raise e) as Hr.
  { destruct Hraise as [(us & sc & Hus & Ht & Hsc & Hx)|(m & x & Hm & Hx & Hp)].
    - rewrite (predict_transform_raises w data us sc e); auto.
    - rewrite (predict_model_input w data m x Hm Hx), Hp. reflexivity. }
  destruct (post_predict_valid str_to_float body data w Hv) as [Hresp _].
  rewrite Hr in Hresp. rewrite Hresp. auto.
Qed.

Lemma inference_errors_propagate_witness :
  fst (post_predict parse_decimal example_request (started failing_scaler_files))
    = InternalServerError (Raised "ValueError in transform").
Proof.
  refine (proj1 (proj2 (inference_errors_propagate parse_decimal
            (started failing_scaler_files) example_request example_data _ _ _))).
  - vm_compute; reflexivity.
  - left. exists (PyBool true), failing_scaler. repeat split; vm_compute; reflexivity.
Defined.

(** ** The process state *)

(** C9: importing the module binds [model], [scaler] and [use_scaler] once
    each; afterwards, whatever requests have been served, the namespace is
    the one the import left, a further call of [predict] leaves it so, and
    no name is bound again. *)
Theorem globals_bound_once_then_fixed (fs : gmap string file) (w1 : world) :
  module_init (boot fs) = (Ok tt, w1) →
  (stores "model" (trace w1) = 1 ∧ stores "scaler" (trace w1) = 1
   ∧ stores "use_scaler" (trace w1) = 1)%nat
  ∧ ∀ (str_to_float : string → option float) (bodies : list json) (data : InputData),
      let w2 := snd (handle_all str_to_float bodies w1) in
      globals w2 = globals w1
      ∧ globals (snd (predict data w2)) = globals w1
      ∧ ∀ name, stores name (trace (snd (predict data w2))) = stores name (trace w1).
Proof.
  intros Hi. split.
  - destruct (fs !! "Calories.pkl") as [[m|e]|] eqn:Hm.
    + destruct (fs !! "scaler.pkl") as [[sc|e]|] eqn:Hs.
      * rewrite (module_init_with_scaler fs m sc Hm Hs) in Hi.
        injection Hi as <-. simpl. auto.
      * pose proof (module_init_scaler_broken fs m e Hm Hs) as Hr.
        rewrite Hi in Hr. discriminate Hr.
      * rewrite (module_init_without_scaler fs m Hm Hs) in Hi.
        injection Hi as <-. simpl. auto.
    + rewrite (module_init_model_broken fs e Hm) in Hi. discriminate Hi.
    + rewrite (module_init_model_missing fs Hm) in Hi. discriminate Hi.
  - intros str_to_float bodies data w2. unfold w2. repeat split.
    + apply handle_all_globals.
    + rewrite predict_globals. apply handle_all_globals.
    + intros name. rewrite predict_stores. apply handle_all_stores.
Qed.

Lemma globals_bound_once_then_fixed_witness :
  (stores "model" (trace (started model_and_scaler)) = 1
   ∧ stores "scaler" (trace (started model_and_scaler)) = 1
   ∧ stores "use_scaler" (trace (started model_and_scaler)) = 1)%nat
  ∧ ∀ (str_to_float : string → option float) (bodies : list json) (data : InputData),
      let w2 := snd (handle_all str_to_float bodies (started model_and_scaler)) in
      globals w2 = globals (started model_and_scaler)
      ∧ globals (snd (predict data w2)) = globals (started model_and_scaler)
      ∧ ∀ name, stores name (trace (snd (predict data w2)))
                = stores name (trace (started model_and_scaler)).
Proof.
  apply (globals_bound_once_then_fixed model_and_scaler (started model_and_scaler)).
  vm_compute; reflexivity.
Defined.

(** * Further properties of the module *)

(** ** More on the handler *)

Lemma predict_result_globals (data : InputData) (w w' : world) :
  globals w = globals w' → fst (predict data w) = fst (predict data w').
Proof.
  destruct w as [g f t], w' as [g' f' t']. simpl. intros <-.
  unfold predict, np_array. run.
  destruct (g !! "use_scaler") as [us|]; simpl; [|reflexivity].
  destruct (truthy us); simpl.
  - destruct (g !! "scaler") as [[| | |sc]|]; simpl; try reflexivity.
    destruct (obj_transform sc _) as [x|e]; simpl; [|reflexivity].
    destruct (g !! "model") as [[| | |m]|]; simpl; try reflexivity.
    destruct (obj_predict m _) as [[|p ps]|e]; reflexivity.
  - destruct (g !! "model") as [[| | |m]|]; simpl; try reflexivity.
    destruct (obj_predict m _) as [[|p ps]|e]; reflexivity.
Qed.

Lemma predict_scaled_first (w : world) (data : InputData) (us : pyval) (sc : pyobj) :
  globals w !! "use_scaler" = Some us → truthy us = true →
  globals w !! "scaler" = Some (PyObj sc) →
  ∃ rest, trace (snd (predict data w)) = trace w ++ EvTransform (raw_vector data) :: rest.
Proof.
  intros Hus Ht Hsc. destruct w as [g f t]. simpl in *.
  unfold predict, np_array, raw_vector. run. rewrite Hus, Ht. simpl. rewrite Hsc. simpl.
  destruct (obj_transform sc _) as [x|e]; simpl; [|eexists; reflexivity].
  destruct (g !! "model") as [[| | |m]|]; simpl; try (eexists; reflexivity).
  destruct (obj_predict m _) as [[|p ps]|e]; simpl;
    rewrite <- app_assoc; eexists; reflexivity.
Qed.

(** ** More on module initialisation *)

Lemma module_init_scaler_broken_world (fs : gmap string file) (m : pyobj) (e : exn) :
  fs !! "Calories.pkl" = Some (Pickle m) → fs !! "scaler.pkl" = Some (Broken e) →
  module_init (boot fs) =
    (Raise e,
     World (<["scaler_path" := PyStr "scaler.pkl"]> (<["model" := PyObj m]> ∅)) fs
       [EvStore "model"; EvStore "scaler_path"]).
Proof. intros Hm Hs. init. rewrite Hm. simpl. rewrite Hs. simpl. rewrite Hs. reflexivity. Qed.

(** What a successful import found on disk and left in the namespace. *)
Lemma module_init_ok_inv (fs : gmap string file) (u : unit) (w1 : world) :
  module_init (boot fs) = (Ok u, w1) →
  ∃ m, fs !! "Calories.pkl" = Some (Pickle m)
    ∧ globals w1 !! "model" = Some (PyObj m)
    ∧ files w1 = fs
    ∧ ((fs !! "scaler.pkl" = None
        ∧ globals w1 !! "use_scaler" = Some (PyBool false)
        ∧ globals w1 !! "scaler" = Some PyNone
        ∧ trace w1 = [EvStore "model"; EvStore "scaler_path"; EvStore "scaler";
                      EvStore "use_scaler"; EvPrint no_scaler_warning])
       ∨ (∃ sc, fs !! "scaler.pkl" = Some (Pickle sc)
          ∧ globals w1 !! "use_scaler" = Some (PyBool true)
          ∧ globals w1 !! "scaler" = Some (PyObj sc)
          ∧ trace w1 = [EvStore "model"; EvStore "scaler_path"; EvStore "scaler";
                        EvStore "use_scaler"])).
Proof.
  intros Hi. destruct u.
  destruct (fs !! "Calories.pkl") as [[m|e]|] eqn:Hm.
  - exists m. split; [reflexivity|].
    destruct (fs !! "scaler.pkl") as [[sc|e]|] eqn:Hs.
    + rewrite (module_init_with_scaler fs m sc Hm Hs) in Hi. injection Hi as <-.
      split; [reflexivity|]. split; [reflexivity|]. right. exists sc. auto.
    + pose proof (module_init_scaler_broken fs m e Hm Hs) as Hr.
      rewrite Hi in Hr. discriminate Hr.
    + rewrite (module_init_without_scaler fs m Hm Hs) in Hi. injection Hi as <-.
      split; [reflexivity|]. split; [reflexivity|]. left. auto.
  - rewrite (module_init_model_broken fs e Hm) in Hi. discriminate Hi.
  - rewrite (module_init_model_missing fs Hm) in Hi. discriminate Hi.
Qed.

(** ** More on the HTTP layer *)

Section HttpMore.

Variable str_to_float : string → option float.

Lemma post_predict_result_globals (body : json) (w w' : world) :
  globals w = globals w' →
  fst (post_predict str_to_float body w) = fst (post_predict str_to_float body w').
Proof.
  intros Hg. unfold post_predict.
  destruct (InputData_validate str_to_float body) as [data|]; [|reflexivity].
  pose proof (predict_result_globals data w w' Hg) as Hr.
  destruct (predict data w) as [[d|e] w1], (predict data w') as [[d'|e'] w1'];
    simpl in Hr; simplify_eq; reflexivity.
Qed.

Lemma handle_all_map (bodies : list json) (w : world) :
  fst (handle_all str_to_float bodies w)
    = map (λ body, fst (post_predict str_to_float body w)) bodies.
Proof.
  revert w. induction bodies as [|b bs IH]; intros w; simpl; [reflexivity|].
  destruct (post_predict_frame str_to_float b w) as (evs & Hw & _).
  destruct (post_predict str_to_float b w) as [r w1] eqn:Hp. simpl in Hw.
  specialize (IH w1). destruct (handle_all str_to_float bs w1) as [rs w2].
  simpl in *. rewrite IH. f_equal. apply map_ext. intros b'.
  apply post_predict_result_globals. subst w1. reflexivity.
Qed.

Lemma handle_all_files (bodies : list json) (w : world) :
  files (snd (handle_all str_to_float bodies w)) = files w.
Proof. destruct (handle_all_frame str_to_float bodies w) as (evs & -> & _). reflexivity. Qed.

End HttpMore.

(** ** Start-up with a scaler on disk *)

(** X1: when both artifacts load, the import succeeds with [use_scaler]
    true and [scaler] bound to the unpickled object, prints nothing, and
    every later call of [predict] begins by calling that scaler on the raw
    row. *)
Theorem startup_with_scaler (fs : gmap string file) (m sc : pyobj) :
  fs !! "Calories.pkl" = Some (Pickle m) →
  fs !! "scaler.pkl" = Some (Pickle sc) →
  ∃ w1, module_init (boot fs) = (Ok tt, w1)
    ∧ globals w1 !! "use_scaler" = Some (PyBool true)
    ∧ globals w1 !! "scaler" = Some (PyObj sc)
    ∧ globals w1 !! "model" = Some (PyObj m)
    ∧ Forall (λ ev, ¬ is_print ev) (trace w1)
    ∧ ∀ (str_to_float : string → option float) (bodies : list json) (data : InputData),
        let w2 := snd (handle_all str_to_float bodies w1) in
        ∃ rest, trace (snd (predict data w2))
                = trace w2 ++ EvTransform (raw_vector data) :: rest.
Proof.
  intros Hm Hs. eexists. split; [apply (module_init_with_scaler fs m sc Hm Hs)|].
  repeat (split; [reflexivity|]).
  split; [repeat (constructor; [simpl; tauto|]); constructor|].
  intros str_to_float bodies data w2.
  apply (predict_scaled_first w2 data (PyBool true) sc); [|reflexivity|];
    unfold w2; rewrite handle_all_globals; reflexivity.
Qed.

Lemma startup_with_scaler_witness :
  ∃ w1, module_init (boot model_and_scaler) = (Ok tt, w1)
    ∧ globals w1 !! "use_scaler" = Some (PyBool true)
    ∧ globals w1 !! "scaler" = Some (PyObj stub_scaler)
    ∧ globals w1 !! "model" = Some (PyObj stub_model)
    ∧ Forall (λ ev, ¬ is_print ev) (trace w1)
    ∧ ∀ (str_to_float : string → option float) (bodies : list json) (data : InputData),
        let w2 := snd (handle_all str_to_float bodies w1) in
        ∃ rest, trace (snd (predict data w2))
                = trace w2 ++ EvTransform (raw_vector data) :: rest.
Proof.
  apply (startup_with_scaler model_and_scaler stub_model stub_scaler);
    vm_compute; reflexivity.
Defined.

(** X2: the scaler is optional only by its absence.  When [scaler.pkl]
    exists but does not load, the import raises that load error although the
    model was loaded and bound; [use_scaler] is never bound, the warning is
    not printed and no request is served. *)
Theorem startup_fails_on_broken_scaler (fs : gmap string file) (m : pyobj) (e : exn) :
  fs !! "Calories.pkl" = Some (Pickle m) →
  fs !! "scaler.pkl" = Some (Broken e) →
  ∀ (str_to_float : string → option float) (bodies : list json),
    fst (serve str_to_float fs bodies) = Raise e
    ∧ globals (snd (serve str_to_float fs bodies)) !! "model" = Some (PyObj m)
    ∧ globals (snd (serve str_to_float fs bodies)) !! "use_scaler" = None
    ∧ trace (snd (serve str_to_float fs bodies)) = [EvStore "model"; EvStore "scaler_path"].
Proof.
  intros Hm Hs str_to_float bodies. unfold serve.
  rewrite (module_init_scaler_broken_world fs m e Hm Hs). simpl.
  repeat split; reflexivity.
Qed.

Lemma startup_fails_on_broken_scaler_witness :
  fst (serve parse_decimal broken_scaler_files [example_request])
    = Raise (Raised "UnpicklingError").
Proof.
  refine (proj1 (startup_fails_on_broken_scaler broken_scaler_files stub_model
                   (Raised "UnpicklingError") _ _ parse_decimal [example_request]));
    vm_compute; reflexivity.
Defined.

(** X3: the process gets to serve exactly when the model file unpickles and
    the scaler file is either absent or unpickles too. *)
Theorem startup_succeeds_iff (str_to_float : string → option float)
    (fs : gmap string file) (bodies : list json) :
  (∃ rs, fst (serve str_to_float fs bodies) = Ok rs)
  ↔ (∃ m, fs !! "Calories.pkl" = Some (Pickle m))
    ∧ (fs !! "scaler.pkl" = None ∨ ∃ sc, fs !! "scaler.pkl" = Some (Pickle sc)).
Proof.
  unfold serve. split.
  - intros (rs & Hr).
    destruct (module_init (boot fs)) as [[u|e] w1] eqn:Hi; [|discriminate Hr].
    destruct (module_init_ok_inv fs u w1 Hi) as (m & Hm & _ & _ & Hsc).
    split; [exists m; exact Hm|].
    destruct Hsc as [(Hs & _)|(sc & Hs & _)]; [left|right; exists sc]; exact Hs.
  - intros [(m & Hm) [Hs|(sc & Hs)]].
    + rewrite (module_init_without_scaler fs m Hm Hs).
      destruct (handle_all _ _ _) as [rs w']. exists rs. reflexivity.
    + rewrite (module_init_with_scaler fs m sc Hm Hs).
      destruct (handle_all _ _ _) as [rs w']. exists rs. reflexivity.
Qed.

(** X4: after every successful import, and after any requests, the scaling
    flag says whether [scaler.pkl] existed, [scaler] is [None] exactly when
    it did not, the warning is in the output exactly when it did not, and the
    file system is as it was found. *)
Theorem scaling_follows_scaler_file (str_to_float : string → option float)
    (fs : gmap string file) (w1 : world) (bodies : list json) :
  module_init (boot fs) = (Ok tt, w1) →
  let w2 := snd (handle_all str_to_float bodies w1) in
  globals w2 !! "use_scaler" = Some (PyBool (bool_decide (is_Some (fs !! "scaler.pkl"))))
  ∧ (globals w2 !! "scaler" = Some PyNone ↔ fs !! "scaler.pkl" = None)
  ∧ (EvPrint no_scaler_warning ∈ trace w2 ↔ fs !! "scaler.pkl" = None)
  ∧ files w2 = fs.
Proof.
  intros Hi w2.
  destruct (module_init_ok_inv fs tt w1 Hi) as (m & Hm & Hgm & Hf & Hsc).
  destruct (handle_all_frame str_to_float bodies w1) as (evs & Hw2 & Hc).
  fold w2 in Hw2. rewrite Hw2. simpl.
  assert (EvPrint no_scaler_warning ∉ evs) as Hnp.
  { intros Hin. rewrite Forall_forall in Hc. apply (Hc _ Hin). }
  destruct Hsc as [(Hs & Hus & Hsn & Ht)|(sc & Hs & Hus & Hsn & Ht)];
    rewrite Hus, Hsn, Ht, Hs; simpl.
  - repeat split; auto. intros _. set_solver.
  - repeat split; auto; try discriminate.
    intros Hin. repeat (apply elem_of_cons in Hin as [Hin|Hin]; [discriminate Hin|]).
    contradiction.
Qed.

Lemma scaling_follows_scaler_file_witness :
  let w2 := snd (handle_all parse_decimal [example_request] (started model_and_scaler)) in
  globals w2 !! "use_scaler"
    = Some (PyBool (bool_decide (is_Some (model_and_scaler !! "scaler.pkl"))))
  ∧ (globals w2 !! "scaler" = Some PyNone ↔ model_and_scaler !! "scaler.pkl" = None)
  ∧ (EvPrint no_scaler_warning ∈ trace w2 ↔ model_and_scaler !! "scaler.pkl" = None)
  ∧ files w2 = model_and_scaler.
Proof.
  apply (scaling_follows_scaler_file parse_decimal model_and_scaler
           (started model_and_scaler) [example_request]).
  vm_compute; reflexivity.
Defined.

(** ** What can go wrong while serving *)

(** X5: once the import has succeeded, a call of [predict] fails only
    because the loaded scaler raised on the raw row, the loaded model raised,
    or the model answered an empty sequence ([IndexError] from
    [prediction[0]]).  In particular no module-level name is ever missing and
    [scaler.transform] is never attempted on [None]. *)
Theorem server_errors_come_from_artifacts (str_to_float : string → option float)
    (fs : gmap string file) (w1 : world) (bodies : list json) (data : InputData)
    (e : exn) :
  module_init (boot fs) = (Ok tt, w1) →
  fst (predict data (snd (handle_all str_to_float bodies w1))) = Raise e →
  (∃ sc, fs !! "scaler.pkl" = Some (Pickle sc)
         ∧ obj_transform sc (raw_vector data) = Raise e)
  ∨ (∃ m x, fs !! "Calories.pkl" = Some (Pickle m)
            ∧ (obj_predict m x = Raise e ∨ (obj_predict m x = Ok [] ∧ e = IndexError))).
Proof.
  intros Hi Hr.
  destruct (module_init_ok_inv fs tt w1 Hi) as (m & Hm & Hgm & _ & Hsc).
  set (w2 := snd (handle_all str_to_float bodies w1)) in *.
  assert (globals w2 = globals w1) as Hg by apply handle_all_globals.
  rewrite <- Hg in Hgm.
  destruct Hsc as [(Hs & Hus & Hsn & _)|(sc & Hs & Hus & Hsn & _)];
    rewrite <- Hg in Hus, Hsn.
  - rewrite (predict_unscaled w2 data (PyBool false) m Hus eq_refl Hgm) in Hr.
    simpl in Hr. right. exists m, (raw_vector data). split; [exact Hm|].
    destruct (obj_predict m _) as [[|p ps]|e']; simplify_eq; auto.
  - destruct (obj_transform sc (raw_vector data)) as [x|e'] eqn:Hx.
    + rewrite (predict_scaled w2 data (PyBool true) sc m x Hus eq_refl Hsn Hx Hgm) in Hr.
      simpl in Hr. right. exists m, x. split; [exact Hm|].
      destruct (obj_predict m _) as [[|p ps]|e'']; simplify_eq; auto.
    + rewrite (predict_transform_raises w2 data (PyBool true) sc e' Hus eq_refl Hsn Hx) in Hr.
      simpl in Hr. simplify_eq. left. exists sc. auto.
Qed.

Lemma server_errors_come_from_artifacts_witness :
  (∃ sc, failing_scaler_files !! "scaler.pkl" = Some (Pickle sc)
         ∧ obj_transform sc (raw_vector example_data)
           = Raise (Raised "ValueError in transform"))
  ∨ (∃ m x, failing_scaler_files !! "Calories.pkl" = Some (Pickle m)
            ∧ (obj_predict m x = Raise (Raised "ValueError in transform")
               ∨ (obj_predict m x = Ok []
                  ∧ Raised "ValueError in transform" = IndexError))).
Proof.
  apply (server_errors_come_from_artifacts parse_decimal failing_scaler_files
           (started failing_scaler_files) [example_request] example_data);
    vm_compute; reflexivity.
Defined.

(** X6: a model that answers an empty sequence makes [prediction[0]] raise
    [IndexError]; the request is answered 500 after the model was called. *)
Theorem empty_prediction_is_server_error (str_to_float : string → option float)
    (w : world) (body : json) (data : InputData) (m : pyobj) (x : ndarray) :
  InputData_validate str_to_float body = Some data →
  globals w !! "model" = Some (PyObj m) →
  model_input w data x →
  obj_predict m x = Ok [] →
  fst (predict data w) = Raise IndexError
  ∧ fst (post_predict str_to_float body w) = InternalServerError IndexError
  ∧ ∃ evs, trace (snd (post_predict str_to_float body w)) = trace w ++ evs ++ [EvPredict x].
Proof.
  intros Hv Hm Hx Hp.
  pose proof (predict_model_input w data m x Hm Hx) as Hr. rewrite Hp in Hr.
  destruct (post_predict_valid str_to_float body data w Hv) as [Hresp Hw].
  rewrite Hr in Hresp. repeat split; [exact Hr|exact Hresp|].
  rewrite Hw. destruct Hx as (us & Hus & Hx). destruct (truthy us) eqn:Ht.
  - destruct Hx as (sc & Hsc & Hx).
    rewrite (predict_scaled w data us sc m x Hus Ht Hsc Hx Hm). simpl.
    exists [EvTransform (raw_vector data)]. reflexivity.
  - subst x. rewrite (predict_unscaled w data us m Hus Ht Hm). simpl.
    exists []. reflexivity.
Qed.

Lemma empty_prediction_is_server_error_witness :
  fst (post_predict parse_decimal example_request (started empty_model_files))
    = InternalServerError IndexError.
Proof.
  refine (proj1 (proj2 (empty_prediction_is_server_error parse_decimal
            (started empty_model_files) example_request example_data empty_model
            (raw_vector example_data) _ _ _ _))).
  - vm_compute; reflexivity.
  - vm_compute; reflexivity.
  - exists (PyBool false). split; vm_compute; reflexivity.
  - vm_compute; reflexivity.
Defined.

(** X7: whatever the namespace holds, one call of [predict] calls each
    artifact at most once, the scaler before the model, and the first array
    submitted is the raw row; it leaves the namespace and the file system
    alone and prints nothing. *)
Theorem predict_calls_shape (data : InputData) (w : world) :
  ∃ evs, snd (predict data w) = World (globals w) (files w) (trace w ++ evs)
    ∧ (evs = []
       ∨ evs = [EvTransform (raw_vector data)]
       ∨ (∃ x, evs = [EvTransform (raw_vector data); EvPredict x])
       ∨ evs = [EvPredict (raw_vector data)]).
Proof.
  destruct w as [g f t]. unfold predict, np_array, raw_vector. run.
  assert (∀ t', World g f t' = World g f (t' ++ [])) as Hnil
    by (intros; rewrite app_nil_r; reflexivity).
  destruct (g !! "use_scaler") as [us|]; simpl; [|exists []; split; [apply Hnil|auto]].
  destruct (truthy us); simpl.
  - destruct (g !! "scaler") as [[| | |sc]|]; simpl; try solve [exists []; split; [apply Hnil|auto]].
    destruct (obj_transform sc _) as [x|e]; simpl; [|eexists; split; [reflexivity|auto]].
    destruct (g !! "model") as [[| | |m]|]; simpl;
      try solve [eexists; split; [reflexivity|auto]].
    exists [EvTransform [[age data; duration data; heart_rate data; body_temp data]];
            EvPredict x].
    split; [|right; right; left; exists x; reflexivity].
    destruct (obj_predict m _) as [[|p ps]|e]; simpl; rewrite <- app_assoc; reflexivity.
  - destruct (g !! "model") as [[| | |m]|]; simpl; try solve [exists []; split; [apply Hnil|auto]].
    eexists. split; [|right; right; right; reflexivity].
    destruct (obj_predict m _) as [[|p ps]|e]; reflexivity.
Qed.

(** ** Requests do not influence each other *)

(** X8: the answer to a request depends on the namespace alone.  Serving a
    list of requests gives, request by request, the answer each would get on
    its own, whatever was served before, whatever the trace holds and
    whatever has since happened to the files the artifacts were loaded
    from. *)
Theorem requests_are_independent (str_to_float : string → option float)
    (bodies : list json) (w w' : world) :
  globals w = globals w' →
  fst (handle_all str_to_float bodies w')
    = map (λ body, fst (post_predict str_to_float body w)) bodies.
Proof.
  intros Hg. rewrite handle_all_map. apply map_ext. intros body.
  apply post_predict_result_globals. symmetry. exact Hg.
Qed.

Lemma requests_are_independent_witness :
  fst (handle_all parse_decimal [malformed_request; example_request]
         (World (globals (started model_and_scaler)) ∅ []))
    = map (λ body, fst (post_predict parse_decimal body (started model_and_scaler)))
          [malformed_request; example_request].
Proof.
  apply (requests_are_independent parse_decimal [malformed_request; example_request]
           (started model_and_scaler) (World (globals (started model_and_scaler)) ∅ [])).
  reflexivity.
Defined.

(** ** More on validation *)

(** X9: members of the body other than the four fields of the schema are
    ignored: adding one, changing one or removing one does not change how the
    request is handled. *)
Theorem unknown_fields_ignored (str_to_float : string → option float)
    (o : gmap string json) (k : string) (v : json) (w : world) :
  k ∉ request_fields →
  post_predict str_to_float (JObj (<[k := v]> o)) w = post_predict str_to_float (JObj o) w
  ∧ post_predict str_to_float (JObj (delete k o)) w = post_predict str_to_float (JObj o) w.
Proof.
  intros Hk.
  assert (∀ name, name ∈ request_fields → k ≠ name) as Hne
    by (intros name Hin ->; contradiction).
  unfold post_predict. split.
  - rewrite (validate_ext str_to_float (<[k := v]> o) o); [reflexivity|].
    intros name Hin. unfold field. rewrite lookup_insert_ne; auto.
  - rewrite (validate_ext str_to_float (delete k o) o); [reflexivity|].
    intros name Hin. unfold field. rewrite lookup_delete_ne; auto.
Qed.

Lemma unknown_fields_ignored_witness :
  post_predict parse_decimal (JObj (<["weight" := JStr "heavy"]> example_members))
      (started model_only)
    = post_predict parse_decimal (JObj example_members) (started model_only).
Proof.
  refine (proj1 (unknown_fields_ignored parse_decimal example_members "weight"
                   (JStr "heavy") (started model_only) _)).
  unfold request_fields. intros Hin.
  repeat (apply elem_of_cons in Hin as [Hin|Hin]; [discriminate Hin|]).
  apply elem_of_nil in Hin. exact Hin.
Defined.

(** X11: from the wire to the artifacts the order is kept: for a body whose
    fields convert to [a], [d], [h], [b], the row submitted to the model
    (without scaling) or to the scaler (with scaling) is [[a, d, h, b]]. *)
Theorem body_fields_reach_artifacts_in_order (str_to_float : string → option float)
    (o : gmap string json) (a d h b : float) (w : world) (us : pyval) :
  field str_to_float o "age" = Some a →
  field str_to_float o "duration" = Some d →
  field str_to_float o "heart_rate" = Some h →
  field str_to_float o "body_temp" = Some b →
  globals w !! "use_scaler" = Some us →
  (truthy us = false → ∀ m, globals w !! "model" = Some (PyObj m) →
     trace (snd (post_predict str_to_float (JObj o) w))
       = trace w ++ [EvPredict [[a; d; h; b]]])
  ∧ (truthy us = true → ∀ sc, globals w !! "scaler" = Some (PyObj sc) →
     ∃ rest, trace (snd (post_predict str_to_float (JObj o) w))
             = trace w ++ EvTransform [[a; d; h; b]] :: rest).
Proof.
  intros Ha Hd Hh Hb Hus.
  assert (InputData_validate str_to_float (JObj o) = Some (mkInputData a d h b)) as Hv
    by (simpl; rewrite Ha, Hd, Hh, Hb; reflexivity).
  destruct (post_predict_valid str_to_float _ _ w Hv) as [_ ->]. split.
  - intros Hf m Hm. rewrite (predict_unscaled w _ us m Hus Hf Hm). reflexivity.
  - intros Ht sc Hsc.
    exact (predict_scaled_first w (mkInputData a d h b) us sc Hus Ht Hsc).
Qed.

Lemma body_fields_reach_artifacts_in_order_witness :
  trace (snd (post_predict parse_decimal
                (JObj {[ "body_temp" := JStr "38.5"; "heart_rate" := JInt 120;
                         "duration" := JFloat 25; "age" := JBool true ]})
                (started model_only)))
    = trace (started model_only) ++ [EvPredict [[1; 25; 120; 38.5]]]%float.
Proof.
  refine (proj1 (body_fields_reach_artifacts_in_order parse_decimal _ 1 25 120 38.5
                   (started model_only) (PyBool false) _ _ _ _ _) _ stub_model _);
    vm_compute; reflexivity.
Defined.
